(** * m2py: preferred-number series lookup and saturated-steam helpers

    A shallow embedding of [m2py/prefnumpy.py] and [thermo/steamtables.py].
    Python values are modelled as follows:
    - [str] as [string], compared with [String.eqb] for [==];
    - [int] as [Z], a list or numpy array of ints as [list Z];
    - [float] as the kernel's binary64 [float] (the format CPython uses);
    - a function that may raise as a value of [result], threaded with
      the [x <- e ;; k] notation;
    - a function that may fall off its end as an [option], [None] being
      Python's [None]. *)

From Stdlib Require Import ZArith QArith Lia Bool List String Ascii.
From Stdlib Require Import Sorting.Sorted.
From Stdlib Require Import Floats.
Import ListNotations.

Set Implicit Arguments.
Set Warnings "-inexact-float".

(** ** Python results *)

Module Py.

(** The exceptions the embedded code can raise. [Exception msg] is the
    bare [raise Exception(msg)] of [PrNmRLkUp]; the other two are raised
    by the interpreter itself (tuple unpacking, float division). *)
Inductive exn : Type :=
| Exception (msg : string)
| ValueError
| ZeroDivisionError.

Inductive result (A : Type) : Type :=
| Return (a : A)
| Raise (e : exn).

Arguments Return {A} a.
Arguments Raise {A} e.

Definition bind {A B : Type} (m : result A) (k : A -> result B) : result B :=
  match m with
  | Return a => k a
  | Raise e => Raise e
  end.

End Py.

Import Py.

Declare Scope py_scope.
Delimit Scope py_scope with py.
Notation "x <- m ;; k" := (bind m (fun x => k))
  (at level 61, m at next level, right associativity) : py_scope.

(** ** prefnumpy.py *)

Module PrefNum.

Open Scope Z_scope.
Open Scope string_scope.

(** The double-quote character of the twice-rounded tokens. *)
Definition dquote : ascii := "034"%char.

(** The twice-rounded tokens: the letter R, a double quote, then the
    digits. *)
Definition Rdq (digits : string) : string := String "R" (String dquote digits).

(** [numpy.array] on a list of ints keeps the values and their order. *)
Definition array (l : list Z) : list Z := l.

Definition unrecognized : exn :=
  Exception "Unrecognized preferred number series token.".

(** [PrNmRLkUp(PfT)], branch for branch.  The four comparisons the source
    writes as ['R''5'], ['R''10'], ['R''20'] and ['R''40'] are adjacent
    string literals, which Python concatenates: they compare [PfT] with
    ["R" ++ "5"] and so on. *)
Definition PrNmRLkUp (PfT : string) : result (list Z * Z * list Z) :=
  let PfO := 2 in
  let DfA := [0] in
  (PfT <-
    (if PfT =? "R5" then
       Return [100; 158; 251; 398; 631]
     else if PfT =? "R10" then
       Return [100; 125; 160; 200; 250; 315; 400; 500; 630; 800]
     else if PfT =? "R20" then
       Return [100; 112; 125; 140; 160; 180; 200; 224; 250; 280;
               315; 355; 400; 450; 500; 560; 630; 710; 800; 900]
     else if PfT =? "R40" then
       Return [100; 106; 112; 118; 125; 132; 140; 150; 160; 170;
               180; 190; 200; 212; 224; 236; 250; 265; 280; 300;
               315; 335; 355; 375; 400; 425; 450; 475; 500; 530;
               560; 600; 630; 670; 710; 750; 800; 850; 900; 950]
     else if PfT =? "R80" then
       Return [100; 103; 106; 109; 112; 115; 118; 122; 125; 128;
               132; 136; 140; 145; 150; 155; 160; 165; 170; 175;
               180; 185; 190; 195; 200; 206; 212; 218; 224; 230;
               236; 243; 250; 258; 265; 272; 280; 290; 300; 307;
               315; 325; 335; 345; 355; 365; 375; 387; 400; 412;
               425; 437; 450; 462; 475; 487; 500; 515; 530; 545;
               560; 580; 600; 615; 630; 650; 670; 690; 710; 730;
               750; 775; 800; 825; 850; 875; 900; 925; 950; 975]
     else if PfT =? "R" ++ "5" then
       Return [100; 160; 250; 400; 630]
     else if PfT =? "R" ++ "10" then
       Return [100; 125; 160; 200; 250; 320; 400; 500; 630; 800]
     else if PfT =? "R" ++ "20" then
       Return [100; 110; 125; 140; 160; 180; 200; 220; 250; 280;
               320; 360; 400; 450; 500; 560; 630; 710; 800; 900]
     else if PfT =? "R" ++ "40" then
       Return [100; 105; 110; 120; 125; 130; 140; 150; 160; 170;
               180; 190; 200; 210; 220; 240; 250; 260; 280; 300;
               320; 340; 360; 380; 400; 420; 450; 480; 500; 530;
               560; 600; 630; 670; 710; 750; 800; 850; 900; 950]
     else if PfT =? Rdq "5" then
       Return [100; 150; 250; 400; 600]
     else if PfT =? Rdq "10" then
       Return [100; 120; 150; 200; 250; 300; 400; 500; 600; 800]
     else if PfT =? Rdq "20" then
       Return [100; 110; 120; 140; 150; 180; 200; 220; 250; 280;
               300; 350; 400; 450; 500; 550; 600; 700; 800; 900]
     else
       Raise unrecognized) ;;
   let PfT := array PfT in
   Return (PfT, PfO, DfA))%py.

(** The second and third components of a successful lookup. *)
Definition PfO_of (r : result (list Z * Z * list Z)) : option Z :=
  match r with Return (_, PfO, _) => Some PfO | Raise _ => None end.

Definition DfA_of (r : result (list Z * Z * list Z)) : option (list Z) :=
  match r with Return (_, _, DfA) => Some DfA | Raise _ => None end.

(** The names the header comment of the source documents as inbuilt
    tokens, table by table. *)
Definition electronic_tokens : list string :=
  ["E6"; "E12"; "E24"; "E48"; "E96"; "E192"].

Definition renard_basic_tokens : list string :=
  ["R5"; "R10"; "R20"; "R40"; "R80"].

Definition renard_rounded_tokens : list string :=
  ["R'5"; "R'10"; "R'20"; "R'40"].

Definition renard_twice_rounded_tokens : list string :=
  [Rdq "5"; Rdq "10"; Rdq "20"].

Definition documented_tokens : list string :=
  (electronic_tokens ++ renard_basic_tokens ++ renard_rounded_tokens
     ++ renard_twice_rounded_tokens ++ ["125"])%list.

(** The names some branch of [PrNmRLkUp] can be entered with. *)
Definition handled_tokens : list string :=
  (renard_basic_tokens ++ renard_twice_rounded_tokens)%list.

(** Properties of a one-decade series. *)
Fixpoint increasing (l : list Z) : bool :=
  match l with
  | x :: (y :: _) as tl => (x <? y)%Z && increasing tl
  | _ => true
  end.

Definition maximum (l : list Z) : Z := fold_right Z.max (hd 0 l) l.
Definition minimum (l : list Z) : Z := fold_right Z.min (hd 0 l) l.

(** The ratio of the largest to the smallest value, as a rational. *)
Definition span (l : list Z) : Q := (inject_Z (maximum l) / inject_Z (minimum l))%Q.

(** The first argument of [prefnum]: a Python list (the default value
    and the calls of the header comment) or a numpy array. *)
Inductive vector : Type :=
| PyList (l : list float)
| NdArray (l : list float).

(** What a comparison with a number evaluates to. *)
Inductive truth : Type :=
| PyBool (b : bool)
| BoolArray (l : list bool).

(** [InA > 0]: element by element on an array; on a list, Python 2
    orders any list after any number. *)
Definition gt0 (InA : vector) : truth :=
  match InA with
  | PyList _ => PyBool true
  | NdArray l => BoolArray (map (fun a => (0 <? a)%float) l)
  end.

(** The second argument: a token, a custom vector or a function handle. *)
Inductive series : Type :=
| Token (s : string)
| Vector (l : list float)
| Handle (f : Z -> float).

(** The outputs the header comment names: [[PfA,PfS,EdS,HsA,HsI]]. *)
Record rounding : Type := {
  PfA : list float;
  PfS : list float;
  EdS : list float;
  HsA : list Z;
  HsI : list Z
}.

(** [prefnum(InA, PfT, varargin)]: two assignments, then the body ends,
    so the call evaluates to Python's [None]. *)
Definition prefnum (InA : vector) (PfT : option series)
    (varargin : option float) : option rounding :=
  let IxZ := gt0 InA in
  let IsV := true in
  None.

(** The first component of a successful lookup. *)
Definition PfT_of (r : result (list Z * Z * list Z)) : option (list Z) :=
  match r with Return (PfT, _, _) => Some PfT | Raise _ => None end.

(** The lists of the four branches whose comparison repeats an earlier
    one, in the order of the source. *)
Definition shadowed_lists : list (list Z) :=
  [ [100; 160; 250; 400; 630];
    [100; 125; 160; 200; 250; 320; 400; 500; 630; 800];
    [100; 110; 125; 140; 160; 180; 200; 220; 250; 280;
     320; 360; 400; 450; 500; 560; 630; 710; 800; 900];
    [100; 105; 110; 120; 125; 130; 140; 150; 160; 170;
     180; 190; 200; 210; 220; 240; 250; 260; 280; 300;
     320; 340; 360; 380; 400; 420; 450; 480; 500; 530;
     560; 600; 630; 670; 710; 750; 800; 850; 900; 950] ].

(** The values at the even positions of a list: the first, the third,
    and so on. *)
Fixpoint every_other (l : list Z) : list Z :=
  match l with
  | x :: _ :: tl => x :: every_other tl
  | _ => l
  end.

(** The number a token's name spells: its decimal digits, read left to
    right, other characters skipped. *)
Fixpoint digits_value (s : string) (acc : Z) : Z :=
  match s with
  | EmptyString => acc
  | String c s' =>
      let d := Z.of_nat (nat_of_ascii c) - 48 in
      if (0 <=? d)%Z && (d <=? 9)%Z then digits_value s' (10 * acc + d)
      else digits_value s' acc
  end.

Definition steps_per_decade (token : string) : Z := digits_value token 0.

End PrefNum.

(** ** steamtables.py *)

Module SteamTables.

(** The arithmetic the functions of the module use.  Python dispatches it
    on the run-time type of the operands; the table holds floats, so the
    program computes with [float]. *)
Class Number (R : Type) : Type := {
  zero : R;
  one : R;
  add : R -> R -> R;
  sub : R -> R -> R;
  mul : R -> R -> R;
  div : R -> R -> R;
  absolute : R -> R;
  eqb : R -> R -> bool;
  ltb : R -> R -> bool;
  milli : R
}.

#[export] Instance float_Number : Number float := {
  zero := 0%float;
  one := 1%float;
  add := PrimFloat.add;
  sub := PrimFloat.sub;
  mul := PrimFloat.mul;
  div := PrimFloat.div;
  absolute := PrimFloat.abs;
  eqb := PrimFloat.eqb;
  ltb := PrimFloat.ltb;
  milli := 1e-3%float
}.

Declare Scope num_scope.
Delimit Scope num_scope with num.
Infix "+" := add : num_scope.
Infix "-" := sub : num_scope.
Infix "*" := mul : num_scope.
Infix "==" := eqb (at level 70, no associativity) : num_scope.
Infix "<" := ltb : num_scope.
Notation "a > b" := (ltb b a) : num_scope.

Section Tables.

Context {R : Type} `{Number R}.

(** [saturation_table] is read from [saturated_water.csv] when the
    module is imported and [interpol] is imported from [rawdata]: the
    functions below are stated for any table and any interpolation. *)
Variable saturation_table : string -> list R.
Variable interpol : R -> list R -> list R -> R.

Local Open Scope num_scope.
Local Open Scope string_scope.

(** [tol = 1e-3] *)
Definition tol : R := milli.

(** [a / b] on Python floats raises when the divisor is zero. *)
Definition truediv (a b : R) : result R :=
  if b == zero then Raise ZeroDivisionError else Return (div a b).

(** [stable(value, _input, params)]: one interpolated value per
    requested column, in the order of [params]. *)
Definition stable (value : R) (_input : string) (params : list string)
    : list R :=
  let s := saturation_table in
  let input_column := s _input in
  map (fun p => interpol value input_column (s p)) params.

(** [P_sat(T)], [Vf_sat(T)], [Vg_sat(T)] and [T_sat(P)]: element [[0]] of
    a one-column call of [stable].  [None] stands for the IndexError of an
    index that is out of range. *)
Definition P_sat (T : R) : option R := nth_error (stable T "T" ["P"]) 0.

Definition Vf_sat (T : R) : option R := nth_error (stable T "T" ["Vf"]) 0.

Definition Vg_sat (T : R) : option R := nth_error (stable T "T" ["Vg"]) 0.

Definition T_sat (P : R) : option R := nth_error (stable P "P" ["T"]) 0.

(** [mixture_volume(x, value, _input)] *)
Definition mixture_volume (x value : R) (_input : string) : result R :=
  match stable value _input ["Vf"; "Vg"] with
  | [vfsat; vgsat] =>
      let v := (one - x) * vfsat + x * vgsat in
      Return v
  | _ => Raise ValueError
  end.

(** [vapor_quality(v, value, _input)] *)
Definition vapor_quality (v value : R) (_input : string) : result R :=
  match stable value _input ["Vf"; "Vg"] with
  | [vfsat; vgsat] => truediv (v - vfsat) (vgsat - vfsat)
  | _ => Raise ValueError
  end.

(** [vapor_quality(mixture_volume(x, value, _input), value, _input)] *)
Definition quality_of_mixture (x value : R) (_input : string) : result R :=
  (v <- mixture_volume x value _input ;; vapor_quality v value _input)%py.

(** [phase(T, P, v, debug)].  [debug] only prints the interpolated
    values.  A call that reaches the end of the body returns [None]. *)
Definition phase (T : R) (P v : option R) (debug : bool)
    : result (option string) :=
  match P with
  | Some P =>
      match stable P "P" ["T"; "Vf"; "Vg"] with
      | [Tsat; vfsat; vgsat] =>
          if T < Tsat then
            Return (Some "Supercooled liquid")
          else if absolute (T - Tsat) < tol then
            Return (Some "Two mixed phase mixture liquid and vapor")
          else
            Return (Some "Vapor")
      | _ => Raise ValueError
      end
  | None =>
      match v with
      | Some v =>
          match stable T "T" ["P"; "Vf"; "Vg"] with
          | [Psat; vfsat; vgsat] =>
              if v < vfsat then
                Return (Some "Liquid")
              else if (vfsat < v) && (v < vgsat) then
                Return (Some "Two mixed phase mixture liquid and vapor")
              else if v > vgsat then
                Return (Some "Super Heated Vapor")
              else
                Return None
          | _ => Raise ValueError
          end
      | None => Return None
      end
  end.

(** The round trip from a quality to a volume and back gives the
    quality again, for [==] of the arithmetic, wherever the two
    saturated volumes differ. *)
Definition roundtrip_law : Prop :=
  forall (x value : R) (_input : string),
    let vf := interpol value (saturation_table _input) (saturation_table "Vf") in
    let vg := interpol value (saturation_table _input) (saturation_table "Vg") in
    (vg == vf) = false ->
    exists y, quality_of_mixture x value _input = Return y /\ (y == x) = true.

End Tables.

(** A table of one row, the one the docstring of [stable] quotes for
    232 degrees, and the interpolation that reads it. *)
Definition row_232 (column : string) : list float :=
  if (column =? "T")%string then [232%float]
  else if (column =? "P")%string then [2900.98%float]
  else if (column =? "Vf")%string then [0.001213%float]
  else if (column =? "Vg")%string then [0.069092%float]
  else [].

Definition first_row (value : float) (xs ys : list float) : float :=
  hd 0%float ys.

(** The last row of the saturated-water table, the critical point, where
    the liquid and the vapor have the same volume. *)
Definition row_critical (column : string) : list float :=
  if (column =? "T")%string then [374.1%float]
  else if (column =? "P")%string then [22089%float]
  else if (column =? "Vf")%string then [0.003155%float]
  else if (column =? "Vg")%string then [0.003155%float]
  else [].


End SteamTables.

(** * Properties of the series lookup *)

Section SeriesLookup.

Import PrefNum.
Local Open Scope Z_scope.
Local Open Scope string_scope.

(** Splits a goal about [PrNmRLkUp t] along the comparisons of the chain,
    in the order the source makes them. *)
Ltac token_cases t :=
  unfold PrNmRLkUp, Rdq, dquote; cbn [append];
  cbv zeta;
  repeat match goal with
         | |- context [String.eqb t ?s] =>
             destruct (String.eqb_spec t s); [subst t; cbn [bind] | ]
         end.

Lemma PrNmRLkUp_cases (t : string) :
  (In t handled_tokens /\ exists vals, PrNmRLkUp t = Return (vals, 2, [0]))
  \/ (~ In t handled_tokens /\ PrNmRLkUp t = Raise unrecognized).
Proof.
  token_cases t.
  1-8: left; split; [cbn; tauto | eexists; reflexivity].
  right; split; [ | reflexivity].
  cbv [handled_tokens renard_basic_tokens renard_twice_rounded_tokens
         Rdq dquote app In].
  intuition congruence.
Qed.

Lemma handled_documented (t : string) :
  In t handled_tokens -> In t documented_tokens.
Proof.
  cbn. intuition.
Qed.

Lemma increasing_Sorted (l : list Z) :
  increasing l = true -> Sorted Z.lt l.
Proof.
  induction l as [ | x [ | y tl] IH]; intros Hinc.
  - constructor.
  - repeat constructor.
  - cbn in Hinc. apply andb_true_iff in Hinc as [Hxy Htl].
    constructor; [now apply IH | constructor; now apply Z.ltb_lt].
Qed.

Lemma positive_Forall (l : list Z) :
  forallb (Z.ltb 0) l = true -> Forall (Z.lt 0) l.
Proof.
  rewrite forallb_forall, Forall_forall.
  intros Hall x Hx. now apply Z.ltb_lt, Hall.
Qed.

(** The lookup on three tokens: a basic one, its twice-rounded sibling
    and its rounded sibling. *)
Example PrNmRLkUp_R5 :
  PrNmRLkUp "R5" = Return ([100; 158; 251; 398; 631], 2, [0]).
Proof. reflexivity. Qed.

Example PrNmRLkUp_R5_twice_rounded :
  PrNmRLkUp (Rdq "5") = Return ([100; 150; 250; 400; 600], 2, [0]).
Proof. reflexivity. Qed.

Example PrNmRLkUp_R5_rounded :
  PrNmRLkUp "R'5" = Raise unrecognized.
Proof. reflexivity. Qed.

(** C1 (the code departs from its header comment): of the nineteen
    documented tokens, the six electronic ones, the four rounded Renard
    ones and 125 reach the final [else] of [PrNmRLkUp] and raise. *)
Theorem documented_tokens_rejected :
  Forall (fun t => PrNmRLkUp t = Raise unrecognized)
         (electronic_tokens ++ renard_rounded_tokens ++ ["125"])%list.
Proof.
  repeat constructor.
Qed.

(** C2, as the code has it: every successful lookup returns 2 as its
    second component, whatever the variant of the token. *)
Theorem PfO_constant (t : string) (vals : list Z) (flag : Z) (tolerance : list Z) :
  PrNmRLkUp t = Return (vals, flag, tolerance) -> flag = 2.
Proof.
  intros Hret.
  destruct (PrNmRLkUp_cases t) as [[_ [vals' Hok]] | [_ Hraise]];
    congruence.
Qed.

Lemma PfO_constant_witness :
  PrNmRLkUp "R5" = Return ([100; 158; 251; 398; 631], 2, [0]) /\ 2 = 2.
Proof.
  split; [reflexivity | ].
  apply (@PfO_constant "R5" [100; 158; 251; 398; 631] 2 [0]).
  reflexivity.
Defined.

(** C2, as the claim has it, fails: the basic token R5 and the
    twice-rounded token of the same step count get the same flag. *)
Lemma PfO_same_for_basic_and_twice_rounded :
  ~ (PfO_of (PrNmRLkUp "R5") <> PfO_of (PrNmRLkUp (Rdq "5"))).
Proof.
  intros Hdiff. apply Hdiff. reflexivity.
Qed.

(** C3: a token outside the documented names raises the
    unrecognized-token exception, and a string input makes [PrNmRLkUp]
    raise nothing else: whatever it raises is that exception, raised
    because no branch of the chain matched. *)
Theorem unknown_token_raises (t : string) :
  (~ In t documented_tokens -> PrNmRLkUp t = Raise unrecognized) /\
  (forall e, PrNmRLkUp t = Raise e ->
             e = unrecognized /\ ~ In t handled_tokens).
Proof.
  destruct (PrNmRLkUp_cases t) as [[Hin [vals Hok]] | [Hout Hraise]].
  - split.
    + intros Hundoc. exfalso. now apply Hundoc, handled_documented.
    + intros e He. congruence.
  - split.
    + intros _. exact Hraise.
    + intros e He. split; [congruence | exact Hout].
Qed.

Lemma unknown_token_raises_witness :
  PrNmRLkUp "E7" = Raise unrecognized.
Proof.
  apply (proj1 (unknown_token_raises "E7")).
  cbv [documented_tokens electronic_tokens renard_basic_tokens
       renard_rounded_tokens renard_twice_rounded_tokens Rdq dquote app In].
  intuition discriminate.
Defined.

(** C4: the series of every token the lookup accepts is strictly
    increasing, has only positive values, and its largest value is less
    than ten times its smallest. *)
Theorem series_within_one_decade (t : string) (vals : list Z) (flag : Z)
    (tolerance : list Z) :
  PrNmRLkUp t = Return (vals, flag, tolerance) ->
  Sorted Z.lt vals /\ Forall (Z.lt 0) vals /\ (span vals < 10)%Q.
Proof.
  intros Hret.
  destruct (PrNmRLkUp_cases t) as [[Hin _] | [_ Hraise]]; [ | congruence].
  cbv [handled_tokens renard_basic_tokens renard_twice_rounded_tokens
       app In] in Hin.
  repeat (destruct Hin as [<- | Hin]); try contradiction;
    vm_compute in Hret; injection Hret as <- _ _;
    (split; [apply increasing_Sorted | split; [apply positive_Forall | ]]);
    vm_compute; reflexivity.
Qed.

Lemma series_within_one_decade_witness :
  Sorted Z.lt [100; 125; 160; 200; 250; 315; 400; 500; 630; 800] /\
  Forall (Z.lt 0) [100; 125; 160; 200; 250; 315; 400; 500; 630; 800] /\
  Qlt (span [100; 125; 160; 200; 250; 315; 400; 500; 630; 800]) 10.
Proof.
  apply (@series_within_one_decade "R10" _ 2 [0]).
  reflexivity.
Defined.

(** C5 (the code departs from its header comment): no default tolerance
    comes back for the electronic tokens, for 125 or for the rounded
    Renard tokens, because the lookup raises; the Renard tokens the
    lookup accepts get the tolerance 0. *)
Theorem default_tolerances :
  Forall (fun t => DfA_of (PrNmRLkUp t) = None)
         (electronic_tokens ++ ["125"] ++ renard_rounded_tokens)%list /\
  Forall (fun t => DfA_of (PrNmRLkUp t) = Some [0]) handled_tokens.
Proof.
  split; repeat constructor.
Qed.

End SeriesLookup.

(** * Properties of the rounding entry point *)

Section Rounding.

Import PrefNum.
Local Open Scope float_scope.

(** The body of [prefnum] ends after its two assignments: no input
    produces a rounding. *)
Lemma prefnum_None (InA : vector) (PfT : option series) (varargin : option float) :
  prefnum InA PfT varargin = None.
Proof.
  reflexivity.
Qed.

(** C6 (the code departs from its header comment): for an input with a
    zero element no rounded vector comes back, whatever the series and
    the tolerance, so the zero is not returned as zero. *)
Theorem prefnum_zero_element (PfT : option series) (varargin : option float) :
  option_map PfA (prefnum (NdArray [0; 514]) PfT varargin) = None.
Proof.
  reflexivity.
Qed.

(** C7 (the code departs from its header comment): for the series and
    the tolerance of the header's edge table, no edge vector comes back. *)
Theorem prefnum_no_edges :
  option_map EdS (prefnum (NdArray [25; 45; 130]) (Some (Vector [20; 30; 60])) (Some 0))
  = None.
Proof.
  reflexivity.
Qed.

(** C8 (the code departs from its header comment): the documented call
    with the token R10 evaluates to [None], not to a result whose
    rounded vector is [[500; 8; 40; 1]]. *)
Theorem prefnum_R10_example :
  prefnum (PyList [514; 7.6; 37; 0.9]) (Some (Token "R10")) None = None /\
  option_map PfA (prefnum (PyList [514; 7.6; 37; 0.9]) (Some (Token "R10")) None)
  <> Some [500; 8; 40; 1].
Proof.
  split; [reflexivity | discriminate].
Qed.

End Rounding.

(** * Properties of the steam-table helpers *)

Section Steam.

Import SteamTables.
Local Open Scope string_scope.


(** C9, as the claim has it, fails in the arithmetic the program runs:
    with the saturated volumes of the docstring of [stable] and the
    quality 0.9 the round trip gives the next float above 0.9. *)
Lemma roundtrip_inexact_binary64 :
  ~ roundtrip_law row_232 first_row.
Proof.
  intros Hlaw.
  specialize (Hlaw 0.9%float 232%float "T").
  vm_compute in Hlaw.
  destruct (Hlaw eq_refl) as [y [Hy Heq]].
  injection Hy as <-.
  vm_compute in Heq. discriminate.
Qed.




End Steam.

(** * More on the series lookup *)

Section SeriesTables.

Import PrefNum.
Local Open Scope Z_scope.
Local Open Scope string_scope.

Lemma PrNmRLkUp_handled (t : string) (r : list Z * Z * list Z) :
  PrNmRLkUp t = Return r -> In t handled_tokens.
Proof.
  intros Hret.
  destruct (PrNmRLkUp_cases t) as [[Hin _] | [_ Hraise]];
    [exact Hin | congruence].
Qed.

(** Replaces a successful lookup [Hret] by its eight possible instances,
    one per accepted token, with the returned triple computed. *)
Ltac each_token Hret :=
  let Hin := fresh "Hin" in
  pose proof (PrNmRLkUp_handled _ Hret) as Hin;
  cbv [handled_tokens renard_basic_tokens renard_twice_rounded_tokens
       app In] in Hin;
  repeat (destruct Hin as [<- | Hin]); try contradiction;
  vm_compute in Hret; injection Hret as <- <- <-.

(** X1: the lookup returns for exactly eight names: the five basic Renard
    tokens and the three twice-rounded ones. *)
Theorem PrNmRLkUp_returns_iff (t : string) :
  (exists r, PrNmRLkUp t = Return r) <-> In t handled_tokens.
Proof.
  split.
  - intros [r Hret]. exact (PrNmRLkUp_handled _ Hret).
  - intros Hin.
    destruct (PrNmRLkUp_cases t) as [[_ [vals Hok]] | [Hout _]];
      [eauto | contradiction].
Qed.

(** X2: the second component is the decade of the values: every series
    starts at [10 ^ PfO] and stays below [10 ^ (PfO + 1)]. *)
Theorem series_in_decade_of_PfO (t : string) (vals : list Z) (flag : Z)
    (tolerance : list Z) :
  PrNmRLkUp t = Return (vals, flag, tolerance) ->
  hd_error vals = Some (10 ^ flag) /\
  Forall (fun v => 10 ^ flag <= v < 10 ^ (flag + 1)) vals.
Proof.
  intros Hret. each_token Hret;
    (split; [reflexivity | ]);
    apply Forall_forall; intros v Hv; cbv [In] in Hv;
    repeat (destruct Hv as [<- | Hv]); try contradiction;
    (split; [apply Z.leb_le | apply Z.ltb_lt]); reflexivity.
Qed.

Lemma series_in_decade_of_PfO_witness :
  hd_error [100; 158; 251; 398; 631] = Some (10 ^ 2) /\
  Forall (fun v => 10 ^ 2 <= v < 10 ^ (2 + 1)) [100; 158; 251; 398; 631].
Proof.
  apply (@series_in_decade_of_PfO "R5" _ 2 [0]).
  reflexivity.
Defined.

(** X3: no token makes the lookup return one of the four lists whose
    comparison repeats an earlier one. *)
Theorem shadowed_lists_never_returned (t : string) (vals : list Z) (flag : Z)
    (tolerance : list Z) :
  PrNmRLkUp t = Return (vals, flag, tolerance) ->
  ~ In vals shadowed_lists.
Proof.
  intros Hret. each_token Hret;
    cbv [shadowed_lists In]; intuition discriminate.
Qed.

Lemma shadowed_lists_never_returned_witness :
  ~ In [100; 158; 251; 398; 631] shadowed_lists.
Proof.
  apply (@shadowed_lists_never_returned "R5" _ 2 [0]).
  reflexivity.
Defined.

(** X4: two tokens that get the same result are the same token. *)
Theorem PrNmRLkUp_injective (t1 t2 : string) (r : list Z * Z * list Z) :
  PrNmRLkUp t1 = Return r -> PrNmRLkUp t2 = Return r -> t1 = t2.
Proof.
  intros H1 H2. destruct r as [[vals flag] tolerance].
  pose proof (PrNmRLkUp_handled _ H2) as Hin2.
  each_token H1;
    cbv [handled_tokens renard_basic_tokens renard_twice_rounded_tokens
         app In] in Hin2;
    repeat (destruct Hin2 as [<- | Hin2]); try contradiction;
    solve [reflexivity | vm_compute in H2; discriminate].
Qed.

Lemma PrNmRLkUp_injective_witness : "R5" = "R5".
Proof.
  apply (@PrNmRLkUp_injective "R5" "R5" ([100; 158; 251; 398; 631], 2, [0]));
    reflexivity.
Defined.

(** X5: the number of values of a series is the number its token spells. *)
Theorem series_length_is_step_count (t : string) (vals : list Z) (flag : Z)
    (tolerance : list Z) :
  PrNmRLkUp t = Return (vals, flag, tolerance) ->
  Z.of_nat (List.length vals) = steps_per_decade t.
Proof.
  intros Hret. each_token Hret; reflexivity.
Qed.

Lemma series_length_is_step_count_witness :
  Z.of_nat (List.length [100; 158; 251; 398; 631]) = steps_per_decade "R5".
Proof.
  apply (@series_length_is_step_count "R5" _ 2 [0]).
  reflexivity.
Defined.

(** X6: halving the step count keeps every second value: R80 gives R40, R40
    gives R20, R20 gives R10, and likewise down the twice-rounded tokens.
    The step from R10 to R5 is the exception: every second value of R10 is
    not the R5 list. *)
Theorem series_halving :
  Forall (fun p => option_map every_other (PfT_of (PrNmRLkUp (fst p)))
                   = PfT_of (PrNmRLkUp (snd p)))
         [("R80", "R40"); ("R40", "R20"); ("R20", "R10");
          (Rdq "20", Rdq "10"); (Rdq "10", Rdq "5")] /\
  option_map every_other (PfT_of (PrNmRLkUp "R10")) <> PfT_of (PrNmRLkUp "R5").
Proof.
  split; [repeat constructor | discriminate].
Qed.

End SeriesTables.

(** * The order of binary64 floats *)

Section FloatOrder.

Local Open Scope Z_scope.

Lemma SFcompare_antisym (x y : spec_float) :
  SFcompare y x = option_map CompOpp (SFcompare x y).
Proof.
  destruct x as [[] | [] | | [] mx ex], y as [[] | [] | | [] my ey];
    cbn; try reflexivity;
    rewrite (Z.compare_antisym ex ey);
    destruct (ex ?= ey); cbn; try reflexivity;
    change (Pos.compare_cont Eq) with Pos.compare;
    rewrite (Pos.compare_antisym mx my);
    now rewrite ?CompOpp_involutive.
Qed.

Lemma SFcompare_Lt_trans (x y z : spec_float) :
  SFcompare x y = Some Lt -> SFcompare y z = Some Lt ->
  SFcompare x z = Some Lt.
Proof.
  intros Hxy Hyz.
  destruct x as [[] | [] | | [] mx ex], y as [[] | [] | | [] my ey],
           z as [[] | [] | | [] mz ez];
    cbn in *; try congruence;
    change (Pos.compare_cont Eq) with Pos.compare in *;
    destruct (Z.compare_spec ex ey), (Z.compare_spec ey ez),
             (Z.compare_spec ex ez);
    try discriminate; try lia; subst;
    destruct (Pos.compare_spec mx my), (Pos.compare_spec my mz),
             (Pos.compare_spec mx mz);
    cbn in *; try discriminate; try lia; congruence.
Qed.

Lemma SFcompare_Eq_l (x y z : spec_float) :
  SFcompare x y = Some Eq -> SFcompare x z = SFcompare y z.
Proof.
  intros Hxy.
  destruct x as [[] | [] | | [] mx ex], y as [[] | [] | | [] my ey];
    cbn in Hxy; try discriminate; try reflexivity;
    try (destruct z as [[] | [] | | [] mz ez]; reflexivity);
    change (Pos.compare_cont Eq) with Pos.compare in *;
    destruct (Z.compare_spec ex ey); try discriminate; subst;
    destruct (Pos.compare_spec mx my); try discriminate; subst;
    reflexivity.
Qed.

Lemma SFcompare_None (x y : spec_float) :
  SFcompare x y = None -> x = S754_nan \/ y = S754_nan.
Proof.
  destruct x as [[] | [] | | [] mx ex], y as [[] | [] | | [] my ey];
    cbn; intros Hnone; try discriminate; auto.
Qed.

Lemma SFcompare_refl (x : spec_float) :
  x <> S754_nan -> SFcompare x x = Some Eq.
Proof.
  intros Hx.
  destruct x as [[] | [] | | [] mx ex]; cbn; try reflexivity;
    try congruence;
    rewrite Z.compare_refl, Pos.compare_cont_refl; reflexivity.
Qed.

End FloatOrder.

Section FloatComparisons.

Local Open Scope float_scope.

(** Moves the comparisons of the goal and of the hypotheses to their
    specification on [spec_float]. *)
Ltac to_spec :=
  unfold is_nan in *;
  rewrite ?ltb_spec, ?eqb_spec in *;
  unfold SFltb, SFeqb in *.

Lemma float_is_nan_spec (a : float) :
  is_nan a = true <-> Prim2SF a = S754_nan.
Proof.
  to_spec. split.
  - intros Hnan.
    destruct (Prim2SF a) as [s | s | | s m e] eqn:Ha; try reflexivity;
      rewrite SFcompare_refl in Hnan by discriminate; discriminate.
  - intros ->. reflexivity.
Qed.

Lemma float_ltb_asym (a b : float) :
  (a <? b) = true -> (b <? a) = false.
Proof.
  to_spec. rewrite (SFcompare_antisym (Prim2SF a) (Prim2SF b)).
  now destruct (SFcompare (Prim2SF a) (Prim2SF b)) as [[] | ].
Qed.

Lemma float_ltb_trans (a b c : float) :
  (a <? b) = true -> (b <? c) = true -> (a <? c) = true.
Proof.
  to_spec. intros Hab Hbc.
  rewrite (@SFcompare_Lt_trans (Prim2SF a) (Prim2SF b) (Prim2SF c)).
  - reflexivity.
  - now destruct (SFcompare (Prim2SF a) (Prim2SF b)) as [[] | ].
  - now destruct (SFcompare (Prim2SF b) (Prim2SF c)) as [[] | ].
Qed.

Lemma float_eqb_ltb_l (a b c : float) :
  (a =? b) = true -> (a <? c) = (b <? c).
Proof.
  to_spec. intros Hab.
  rewrite (@SFcompare_Eq_l (Prim2SF a) (Prim2SF b) (Prim2SF c)).
  - reflexivity.
  - now destruct (SFcompare (Prim2SF a) (Prim2SF b)) as [[] | ].
Qed.

Lemma float_eqb_ltb_r (a b c : float) :
  (a =? b) = true -> (c <? a) = (c <? b).
Proof.
  to_spec. intros Hab.
  rewrite (SFcompare_antisym (Prim2SF a) (Prim2SF c)),
          (SFcompare_antisym (Prim2SF b) (Prim2SF c)),
          (@SFcompare_Eq_l (Prim2SF a) (Prim2SF b) (Prim2SF c)).
  - reflexivity.
  - now destruct (SFcompare (Prim2SF a) (Prim2SF b)) as [[] | ].
Qed.

Lemma float_eqb_not_ltb (a b : float) :
  (a =? b) = true -> (a <? b) = false /\ (b <? a) = false.
Proof.
  to_spec. rewrite (SFcompare_antisym (Prim2SF a) (Prim2SF b)).
  now destruct (SFcompare (Prim2SF a) (Prim2SF b)) as [[] | ].
Qed.

Lemma float_ltb_not_nan (a b : float) :
  (a <? b) = true -> is_nan a = false /\ is_nan b = false.
Proof.
  intros Hab.
  split; apply not_true_is_false; intros Hnan;
    apply float_is_nan_spec in Hnan;
    rewrite ltb_spec in Hab; unfold SFltb in Hab; rewrite Hnan in Hab;
    [ | destruct (Prim2SF a)]; discriminate.
Qed.

Lemma float_nan_compare (a b : float) :
  is_nan a = true ->
  (a <? b) = false /\ (b <? a) = false /\ (a =? b) = false.
Proof.
  intros Hnan. apply float_is_nan_spec in Hnan.
  rewrite !ltb_spec, eqb_spec. unfold SFltb, SFeqb. rewrite Hnan.
  now destruct (Prim2SF b).
Qed.

Lemma float_not_ltb_cases (a b : float) :
  (a <? b) = false -> (b <? a) = false ->
  (a =? b) = true \/ is_nan a = true \/ is_nan b = true.
Proof.
  intros Hab Hba.
  rewrite ltb_spec in Hab, Hba. rewrite eqb_spec, !float_is_nan_spec.
  unfold SFltb, SFeqb in *.
  rewrite (SFcompare_antisym (Prim2SF a) (Prim2SF b)) in Hba.
  destruct (SFcompare (Prim2SF a) (Prim2SF b)) as [[] | ] eqn:Hcmp;
    try discriminate; [now left | right].
  now apply SFcompare_None.
Qed.

End FloatComparisons.

Section FloatArithmetic.

Local Open Scope float_scope.

Lemma float_sub_nan (a b : float) :
  is_nan a = true \/ is_nan b = true -> is_nan (a - b) = true.
Proof.
  rewrite !float_is_nan_spec, sub_spec. unfold SF64sub, SFsub.
  intros [-> | ->]; [reflexivity | now destruct (Prim2SF a)].
Qed.

Lemma float_abs_nan (a : float) :
  is_nan a = true -> is_nan (abs a) = true.
Proof.
  rewrite !float_is_nan_spec, abs_spec. now intros ->.
Qed.

Lemma float_not_ltb_leb (a b : float) :
  (a <? b) = false -> is_nan a = false -> is_nan b = false ->
  (b <=? a) = true.
Proof.
  intros Hab Ha Hb.
  destruct (b <? a) eqn:Hba.
  - rewrite leb_spec. rewrite ltb_spec in Hba. unfold SFleb, SFltb in *.
    now destruct (SFcompare (Prim2SF b) (Prim2SF a)) as [[] | ].
  - destruct (float_not_ltb_cases Hab Hba) as [Heq | [Hn | Hn]];
      try congruence.
    rewrite leb_spec. rewrite eqb_spec in Heq. unfold SFleb, SFeqb in *.
    rewrite (SFcompare_antisym (Prim2SF a) (Prim2SF b)).
    now destruct (SFcompare (Prim2SF a) (Prim2SF b)) as [[] | ].
Qed.

Lemma float_finite_spec (b : float) :
  is_finite b = true ->
  (exists s, Prim2SF b = S754_zero s) \/
  (exists s m e, Prim2SF b = S754_finite s m e).
Proof.
  unfold is_finite, is_infinity, is_nan.
  rewrite !eqb_spec, abs_spec.
  replace (Prim2SF infinity) with (S754_infinity false) by reflexivity.
  destruct (Prim2SF b) as [s | s | | s m e]; cbn; try discriminate; eauto.
  rewrite orb_true_r. discriminate.
Qed.

Lemma float_sub_eq_zero (a b : float) :
  (a =? b) = true -> is_finite b = true -> (a - b =? 0) = true.
Proof.
  intros Heq Hfin.
  rewrite eqb_spec in Heq. rewrite eqb_spec, sub_spec.
  replace (Prim2SF 0) with (S754_zero false) by reflexivity.
  unfold SFeqb, SF64sub in *.
  destruct (@float_finite_spec b Hfin) as [[sb Hb] | [sb [mb [eb Hb]]]];
    rewrite Hb in *; clear Hb;
    destruct sb, (Prim2SF a) as [[] | [] | | [] ma ea]; cbn in Heq;
    try discriminate; try reflexivity;
    change (Pos.compare_cont Eq) with Pos.compare in Heq;
    destruct (Z.compare_spec ea eb); try discriminate;
    destruct (Pos.compare_spec ma mb); try discriminate; subst;
    unfold SFsub; cbv zeta; rewrite Z.sub_diag; reflexivity.
Qed.

End FloatArithmetic.

(** * More on the steam-table helpers *)

Section TableLookups.

Import SteamTables.
Local Open Scope string_scope.

Context {R : Type} `{Number R}.
Variable saturation_table : string -> list R.
Variable interpol : R -> list R -> list R -> R.

(** X7: [stable] returns one value per requested column, in the order of
    the request, and the value at a position is the one a call for that
    column alone returns. *)
Theorem stable_column_by_column (value : R) (_input : string)
    (params : list string) :
  List.length (stable saturation_table interpol value _input params)
    = List.length params /\
  forall (k : nat) (p : string),
    nth_error params k = Some p ->
    nth_error (stable saturation_table interpol value _input params) k
      = nth_error (stable saturation_table interpol value _input [p]) 0.
Proof.
  unfold stable. split.
  - apply length_map.
  - intros k p Hk. rewrite nth_error_map, Hk. reflexivity.
Qed.

(** X8: the one-column helpers never index out of range, and the three
    values [phase] unpacks at a temperature are those of [P_sat], [Vf_sat]
    and [Vg_sat]. *)
Theorem saturation_helpers (T P : R) :
  map Some (stable saturation_table interpol T "T" ["P"; "Vf"; "Vg"])
    = [P_sat saturation_table interpol T;
       Vf_sat saturation_table interpol T;
       Vg_sat saturation_table interpol T] /\
  map Some (stable saturation_table interpol P "P" ["T"])
    = [T_sat saturation_table interpol P].
Proof.
  split; reflexivity.
Qed.

(** X9: with a pressure given, [phase] ignores the volume and the debug
    flag, and answers with one of three labels: it never returns [None]
    and never raises. *)
Theorem phase_with_pressure (T P : R) (v : option R) (debug : bool) :
  phase saturation_table interpol T (Some P) v debug
    = phase saturation_table interpol T (Some P) None false /\
  In (phase saturation_table interpol T (Some P) v debug)
     [Return (Some "Supercooled liquid");
      Return (Some "Two mixed phase mixture liquid and vapor");
      Return (Some "Vapor")].
Proof.
  split; [reflexivity | ].
  unfold phase, stable. cbn [map].
  repeat match goal with
         | |- context [if ?b then _ else _] => destruct b
         end; cbn; auto.
Qed.

End TableLookups.

Section PhaseOnFloats.

Import SteamTables.
Local Open Scope string_scope.
Local Open Scope float_scope.

Variable saturation_table : string -> list float.
Variable interpol : float -> list float -> list float -> float.

(** X10: where the table gives a liquid volume below the vapor volume, the
    answer of [phase] for a volume follows the order of the three numbers:
    liquid below the liquid volume, mixture strictly between the two,
    superheated vapor above the vapor volume, and [None] exactly on the
    two saturation volumes and for a NaN. *)
Theorem phase_by_volume (T v : float) (debug : bool) :
  let vf := interpol T (saturation_table "T") (saturation_table "Vf") in
  let vg := interpol T (saturation_table "T") (saturation_table "Vg") in
  (vf <? vg) = true ->
  (phase saturation_table interpol T None (Some v) debug
     = Return (Some "Liquid")
   <-> (v <? vf) = true) /\
  (phase saturation_table interpol T None (Some v) debug
     = Return (Some "Two mixed phase mixture liquid and vapor")
   <-> (vf <? v) = true /\ (v <? vg) = true) /\
  (phase saturation_table interpol T None (Some v) debug
     = Return (Some "Super Heated Vapor")
   <-> (vg <? v) = true) /\
  (phase saturation_table interpol T None (Some v) debug = Return None
   <-> (v =? vf) = true \/ (v =? vg) = true \/ is_nan v = true).
Proof.
  intros vf vg Hlt.
  unfold phase, stable. cbn [map]. fold vf vg. cbn.
  pose proof (float_ltb_asym Hlt) as Hgl.
  destruct (float_ltb_not_nan Hlt) as [Hnf Hng].
  assert (Hbelow : (v <? vf) = true ->
            (vf <? v) = false /\ (v <? vg) = true /\ (vg <? v) = false).
  { intros B. pose proof (float_ltb_trans B Hlt) as B'.
    auto using float_ltb_asym. }
  assert (Habove : (vg <? v) = true ->
            (v <? vg) = false /\ (vf <? v) = true /\ (v <? vf) = false).
  { intros B. pose proof (float_ltb_trans Hlt B) as B'.
    auto using float_ltb_asym. }
  assert (Hmid : (v <? vg) = true -> (vg <? v) = false)
    by apply float_ltb_asym.
  assert (Hef : (v =? vf) = true ->
            (v <? vf) = false /\ (vf <? v) = false /\ (vg <? v) = false).
  { intros E. destruct (float_eqb_not_ltb E) as [E1 E2].
    rewrite (float_eqb_ltb_r vg E). auto. }
  assert (Heg : (v =? vg) = true ->
            (v <? vf) = false /\ (v <? vg) = false /\ (vg <? v) = false).
  { intros E. destruct (float_eqb_not_ltb E) as [E1 E2].
    rewrite (float_eqb_ltb_l vf E). auto. }
  assert (Hnan : is_nan v = true ->
            (v <? vf) = false /\ (vf <? v) = false /\ (vg <? v) = false).
  { intros E. destruct (@float_nan_compare v vf E) as [E1 [E2 _]].
    destruct (@float_nan_compare v vg E) as [_ [E3 _]]. auto. }
  pose proof (@float_not_ltb_cases v vf) as Hcf.
  pose proof (@float_not_ltb_cases v vg) as Hcg.
  destruct (v <? vf) eqn:B1, (vf <? v) eqn:B2, (v <? vg) eqn:B3,
           (vg <? v) eqn:B4; cbn;
    repeat split; intros; try discriminate; try reflexivity;
    try tauto; try (exfalso; intuition congruence).
  all: try (destruct (Hcf eq_refl eq_refl) as [E | [E | E]];
            [tauto | tauto | congruence]).
  all: destruct (Hcg eq_refl eq_refl) as [E | [E | E]];
    [tauto | tauto | congruence].
Qed.

End PhaseOnFloats.

Section PhaseEdges.

Import SteamTables.
Local Open Scope string_scope.
Local Open Scope float_scope.

Variable saturation_table : string -> list float.
Variable interpol : float -> list float -> list float -> float.

Lemma float_leb_not_ltb (a b : float) :
  (b <=? a) = true -> (a <? b) = false.
Proof.
  rewrite leb_spec, ltb_spec. unfold SFleb, SFltb.
  rewrite (SFcompare_antisym (Prim2SF b) (Prim2SF a)).
  now destruct (SFcompare (Prim2SF b) (Prim2SF a)) as [[] | ].
Qed.

(** X11: a NaN temperature, or a NaN saturation temperature out of the
    interpolation, is answered with the label of the last branch. *)
Theorem phase_nan_is_vapor (T P : float) (v : option float) (debug : bool) :
  let Tsat := interpol P (saturation_table "P") (saturation_table "T") in
  is_nan T = true \/ is_nan Tsat = true ->
  phase saturation_table interpol T (Some P) v debug = Return (Some "Vapor").
Proof.
  intros Tsat Hnan.
  unfold phase, stable. cbn [map]. fold Tsat. cbn.
  assert (Hd : is_nan (abs (T - Tsat)) = true)
    by (apply float_abs_nan, float_sub_nan; exact Hnan).
  rewrite (proj1 (@float_nan_compare _ _ Hd)).
  destruct Hnan as [Hn | Hn].
  - now rewrite (proj1 (@float_nan_compare T Tsat Hn)).
  - now rewrite (proj1 (proj2 (@float_nan_compare Tsat T Hn))).
Qed.

(** X12: with a pressure given, the mixture label is given exactly to the
    temperatures at or above the saturation temperature and closer to it
    than [tol]: a temperature below it, however close, is not a mixture. *)
Theorem mixture_label_iff (T P : float) (v : option float) (debug : bool) :
  let Tsat := interpol P (saturation_table "P") (saturation_table "T") in
  phase saturation_table interpol T (Some P) v debug
    = Return (Some "Two mixed phase mixture liquid and vapor")
  <-> (Tsat <=? T) = true /\ (abs (T - Tsat) <? tol) = true.
Proof.
  intros Tsat.
  unfold phase, stable. cbn [map]. fold Tsat. cbn.
  destruct (T <? Tsat) eqn:B1.
  - split; [discriminate | ].
    intros [Hle _]. apply float_leb_not_ltb in Hle. congruence.
  - destruct (abs (T - Tsat) <? _) eqn:B2.
    + split; [intros _ | reflexivity]. split; [ | reflexivity].
      destruct (float_ltb_not_nan B2) as [Hd _].
      apply (float_not_ltb_leb B1).
      * destruct (is_nan T) eqn:Hn; [ | reflexivity].
        rewrite float_abs_nan in Hd; [discriminate | ].
        apply float_sub_nan. now left.
      * destruct (is_nan Tsat) eqn:Hn; [ | reflexivity].
        rewrite float_abs_nan in Hd; [discriminate | ].
        apply float_sub_nan. now right.
    + split; [discriminate | intros [_ Hclose]; discriminate].
Qed.

(** X13: where the table gives the same finite volume for the liquid and the
    vapor, as at the critical point, [vapor_quality] divides by zero for
    every volume. *)
Theorem vapor_quality_equal_volumes (v value : float) (_input : string) :
  let vf := interpol value (saturation_table _input) (saturation_table "Vf") in
  let vg := interpol value (saturation_table _input) (saturation_table "Vg") in
  (vg =? vf) = true -> is_finite vf = true ->
  vapor_quality saturation_table interpol v value _input
    = Raise ZeroDivisionError.
Proof.
  intros vf vg Heq Hfin.
  unfold vapor_quality, stable, truediv. cbn [map]. fold vf vg. cbn.
  now rewrite (float_sub_eq_zero Heq Hfin).
Qed.

End PhaseEdges.

(** * Rounding in binary64 *)

Section FloatRounding.

Local Open Scope Z_scope.
Local Unset Implicit Arguments.

Lemma Prim2SF_one :
  Prim2SF 1%float = S754_finite false 4503599627370496 (-52).
Proof. reflexivity. Qed.

Lemma Prim2SF_zero : Prim2SF 0%float = S754_zero false.
Proof. reflexivity. Qed.

Lemma shr_fexp_canonical (m : positive) (e : Z) :
  canonical_mantissa prec emax m e = true ->
  shr_fexp prec emax (Zpos m) e loc_Exact
  = ({| shr_m := Zpos m; shr_r := false; shr_s := false |}, e).
Proof.
  unfold canonical_mantissa, shr_fexp. intros Hc. apply Z.eqb_eq in Hc.
  cbn [Zdigits2]. rewrite Hc, Z.sub_diag. reflexivity.
Qed.

Lemma shr_fexp_shifted (m : positive) (e : Z) :
  canonical_mantissa prec emax m e = true ->
  shr_fexp prec emax (Zpos (4503599627370496 * m)) (-52 + e) loc_Exact
  = ({| shr_m := Zpos m; shr_r := false; shr_s := false |}, e).
Proof.
  unfold canonical_mantissa, shr_fexp. intros Hc. apply Z.eqb_eq in Hc.
  cbn [Zdigits2 Pos.mul digits2_pos].
  match goal with
  | |- context [fexp prec emax ?a] =>
      replace a with (Zpos (digits2_pos m) + e) by lia
  end.
  rewrite Hc.
  replace (e - (-52 + e)) with 52 by lia.
  cbn [shr shr_record_of_loc iter_pos shr_1 orb].
  f_equal. lia.
Qed.

(** Multiplying by one rounds to the other factor. *)
Lemma SFmul_one_l (y : spec_float) :
  valid_binary y = true ->
  SF64mul (S754_finite false 4503599627370496 (-52)) y = y.
Proof.
  destruct y as [s | s | | s m e]; try reflexivity.
  unfold valid_binary, bounded. intros Hv.
  apply andb_true_iff in Hv as [Hc Hle].
  unfold SF64mul, SFmul, binary_round_aux.
  rewrite (shr_fexp_shifted _ _ Hc).
  cbn [shr_m loc_of_shr_record round_nearest_even].
  rewrite (shr_fexp_canonical _ _ Hc).
  cbn [shr_m xorb]. now rewrite Hle.
Qed.

Lemma SFdiv_core_self (m : positive) (e : Z) :
  SFdiv_core_binary prec emax (Zpos m) e (Zpos m) e
  = (9007199254740992, -53, loc_Exact).
Proof.
  unfold SFdiv_core_binary. cbv zeta.
  rewrite !Z.sub_diag.
  replace (Z.min (fexp prec emax 0) 0) with (-53) by reflexivity.
  replace (0 - -53) with 53 by reflexivity.
  cbv iota beta.
  rewrite Z.shiftl_mul_pow2 by lia.
  destruct (Z.div_eucl (Zpos m * 2 ^ 53) (Zpos m)) as [q r] eqn:Hqr.
  assert (Hq : q = (Zpos m * 2 ^ 53) / Zpos m)
    by (unfold Z.div; now rewrite Hqr).
  assert (Hr : r = (Zpos m * 2 ^ 53) mod Zpos m)
    by (unfold Z.modulo; now rewrite Hqr).
  rewrite Z.mul_comm, Z.div_mul in Hq by lia.
  rewrite Z.mul_comm, Z.mod_mul in Hr by lia.
  subst q r. unfold new_location, new_location_even, new_location_odd.
  now destruct (Z.even (Zpos m)).
Qed.

(** A finite non-zero number divided by itself is one. *)
Lemma SFdiv_self (s : bool) (m : positive) (e : Z) :
  SF64div (S754_finite s m e) (S754_finite s m e)
  = S754_finite false 4503599627370496 (-52).
Proof.
  unfold SF64div, SFdiv. rewrite SFdiv_core_self, xorb_nilpotent.
  reflexivity.
Qed.

Lemma digits2_log2 (p : positive) :
  Zpos (digits2_pos p) = Z.log2 (Zpos p) + 1.
Proof.
  assert (Hsize : forall q, digits2_pos q = Pos.size q)
    by (induction q as [q IH | q IH | ]; cbn; now rewrite ?IH).
  destruct p as [p | p | ]; cbn [digits2_pos Z.log2]; rewrite ?Hsize; lia.
Qed.

Lemma shr_1_digits (r : shr_record) :
  0 < shr_m r -> 1 < Zdigits2 (shr_m r) ->
  0 < shr_m (shr_1 r) /\ Zdigits2 (shr_m (shr_1 r)) = Zdigits2 (shr_m r) - 1.
Proof.
  destruct r as [[ | [p | p | ] | p] b c];
    cbn [shr_m shr_1 Zdigits2 digits2_pos]; intros Hpos Hdig; lia.
Qed.

Lemma iter_shr_1_digits (n : positive) :
  forall r : shr_record,
    0 < shr_m r -> Zpos n < Zdigits2 (shr_m r) ->
    0 < shr_m (iter_pos shr_1 n r) /\
    Zdigits2 (shr_m (iter_pos shr_1 n r)) = Zdigits2 (shr_m r) - Zpos n.
Proof.
  induction n as [n IH | n IH | ]; intros r Hpos Hdig; cbn [iter_pos].
  - destruct (shr_1_digits r Hpos) as [H1 H2]; [lia | ].
    destruct (IH (shr_1 r) H1) as [H3 H4]; [lia | ].
    destruct (IH _ H3) as [H5 H6]; [lia | ].
    split; [exact H5 | lia].
  - destruct (IH r Hpos) as [H3 H4]; [lia | ].
    destruct (IH _ H3) as [H5 H6]; [lia | ].
    split; [exact H5 | lia].
  - apply shr_1_digits; lia.
Qed.

(** Above the smallest exponent, the shift to the format's exponent keeps
    a positive mantissa positive. *)
Lemma shr_fexp_positive (m e : Z) (l : location) :
  -1074 <= e -> 0 < m ->
  0 < shr_m (fst (shr_fexp prec emax m e l)) /\
  -1074 <= snd (shr_fexp prec emax m e l).
Proof.
  intros He Hm. unfold shr_fexp, shr.
  assert (Hrec : shr_m (shr_record_of_loc m l) = m)
    by (now destruct l as [ | []]).
  assert (Hf : fexp prec emax (Zdigits2 m + e)
               = Z.max (Zdigits2 m + e - 53) (-1074)) by reflexivity.
  destruct (fexp prec emax (Zdigits2 m + e) - e) as [ | p | p] eqn:Hn;
    cbn [fst snd]; rewrite ?Hrec; try (split; lia).
  destruct (iter_shr_1_digits p (shr_record_of_loc m l)) as [H1 _];
    rewrite ?Hrec; try lia.
Qed.

Lemma round_nearest_even_positive (m : Z) (l : location) :
  0 < m -> 0 < round_nearest_even m l.
Proof.
  intros Hm. destruct l as [ | []]; cbn; try destruct (Z.even m); lia.
Qed.

Lemma binary_round_aux_nonzero (s : bool) (p : positive) (e : Z) :
  -1074 <= e ->
  forall z, binary_round_aux prec emax s (Zpos p) e loc_Exact <> S754_zero z.
Proof.
  intros He z. unfold binary_round_aux.
  destruct (shr_fexp_positive (Zpos p) e loc_Exact He) as [H1 H2]; [lia | ].
  destruct (shr_fexp prec emax (Zpos p) e loc_Exact) as [r1 e1].
  cbn [fst snd] in H1, H2.
  pose proof (round_nearest_even_positive (shr_m r1) (loc_of_shr_record r1) H1)
    as H3.
  destruct (shr_fexp_positive _ e1 loc_Exact H2 H3) as [H4 _].
  destruct (shr_fexp prec emax _ e1 loc_Exact) as [r2 e2].
  cbn [fst] in H4.
  destruct (shr_m r2); try lia.
  now destruct (e2 <=? emax - prec).
Qed.

Lemma binary_round_nonzero (s : bool) (p : positive) (e : Z) :
  -1074 <= e -> forall z, binary_round prec emax s p e <> S754_zero z.
Proof.
  intros He. unfold binary_round, shl_align.
  assert (Hf : fexp prec emax (Zpos (digits2_pos p) + e)
               = Z.max (Zpos (digits2_pos p) + e - 53) (-1074)) by reflexivity.
  destruct (fexp prec emax (Zpos (digits2_pos p) + e) - e) eqn:Hn;
    apply binary_round_aux_nonzero; lia.
Qed.

Lemma iter_xO_value (m d : positive) :
  Zpos (Pos.iter xO m d) = Zpos m * 2 ^ Zpos d.
Proof.
  induction d as [ | d IH] using Pos.peano_ind.
  - cbn [Pos.iter]. lia.
  - rewrite Pos.iter_succ, Pos2Z.inj_succ, Z.pow_succ_r by lia.
    rewrite Pos2Z.inj_xO, IH. lia.
Qed.

Lemma shl_align_value (m : positive) (e e' : Z) :
  e' <= e -> Zpos (fst (shl_align m e e')) = Zpos m * 2 ^ (e - e').
Proof.
  intros Hle. unfold shl_align.
  destruct (e' - e) as [ | d | d] eqn:Hd; cbn [fst].
  - replace (e - e') with 0 by lia. lia.
  - lia.
  - replace (e - e') with (Zpos d) by lia. apply iter_xO_value.
Qed.

Lemma canonical_exponent (m : positive) (e : Z) :
  canonical_mantissa prec emax m e = true ->
  e = Z.max (Z.log2 (Zpos m) + 1 + e - 53) (-1074).
Proof.
  unfold canonical_mantissa. intros Hc. apply Z.eqb_eq in Hc.
  rewrite digits2_log2 in Hc. rewrite <- Hc at 1. reflexivity.
Qed.

(** The difference of two different finite non-zero numbers of the format
    is not zero: it may be subnormal, but it does not vanish. *)
Lemma SFsub_finite_nonzero (sx sy : bool) (mx my : positive) (ex ey : Z) :
  canonical_mantissa prec emax mx ex = true ->
  canonical_mantissa prec emax my ey = true ->
  (sx, mx, ex) <> (sy, my, ey) ->
  forall z,
    SF64sub (S754_finite sx mx ex) (S754_finite sy my ey) <> S754_zero z.
Proof.
  intros Hcx Hcy Hne.
  pose proof (canonical_exponent _ _ Hcx) as Hex.
  pose proof (canonical_exponent _ _ Hcy) as Hey.
  unfold SF64sub, SFsub. cbv zeta.
  rewrite !shl_align_value by lia.
  set (kx := ex - Z.min ex ey). set (ky := ey - Z.min ex ey).
  assert (Hkx : 0 <= kx) by lia. assert (Hky : 0 <= ky) by lia.
  assert (Hpx : 0 < 2 ^ kx) by (apply Z.pow_pos_nonneg; lia).
  assert (Hpy : 0 < 2 ^ ky) by (apply Z.pow_pos_nonneg; lia).
  assert (HX : 0 < Zpos mx * 2 ^ kx) by lia.
  assert (HY : 0 < Zpos my * 2 ^ ky) by lia.
  unfold binary_normalize.
  destruct (cond_Zopp sx (Zpos mx * 2 ^ kx) - cond_Zopp sy (Zpos my * 2 ^ ky))
    as [ | p | p] eqn:HD; try (apply binary_round_nonzero; lia).
  exfalso.
  destruct sx, sy; cbn [cond_Zopp] in HD; try lia.
  all: assert (Hxy : Zpos mx * 2 ^ kx = Zpos my * 2 ^ ky) by lia.
  all: pose proof (f_equal Z.log2 Hxy) as Hlog.
  all: rewrite !Z.log2_mul_pow2 in Hlog by lia.
  all: assert (He : ex = ey) by lia.
  all: assert (Hk : kx = ky) by (subst kx ky; lia).
  all: rewrite Hk in Hxy.
  all: apply Z.mul_cancel_r in Hxy; [ | lia].
  all: apply Hne; congruence.
Qed.

End FloatRounding.

Section FloatExact.

Local Open Scope float_scope.
Local Unset Implicit Arguments.

Lemma float_mul_one_l (y : float) : 1 * y = y.
Proof.
  apply Prim2SF_inj. rewrite mul_spec, Prim2SF_one.
  apply SFmul_one_l, Prim2SF_valid.
Qed.

Lemma float_eqb_zero_spec (a : float) :
  (a =? 0) = true <-> exists s, Prim2SF a = S754_zero s.
Proof.
  rewrite eqb_spec, Prim2SF_zero. unfold SFeqb.
  destruct (Prim2SF a) as [s | [] | | [] m e]; cbn;
    (split; [intros Heq | intros [z Hz]]); try discriminate; eauto.
Qed.

Lemma float_finite_nonzero_spec (d : float) :
  is_finite d = true -> (d =? 0) = false ->
  exists s m e, Prim2SF d = S754_finite s m e.
Proof.
  intros Hd Hd0.
  destruct (@float_finite_spec d Hd) as [[s Hs] | Hfin]; [ | exact Hfin].
  assert (Hz : (d =? 0) = true) by (apply float_eqb_zero_spec; eauto).
  congruence.
Qed.

Lemma float_zero_mul (z y : float) :
  (z =? 0) = true -> is_finite y = true -> (z * y =? 0) = true.
Proof.
  intros Hz Hy. apply float_eqb_zero_spec in Hz as [sz Hz].
  apply float_eqb_zero_spec. rewrite mul_spec, Hz.
  destruct (@float_finite_spec y Hy) as [[s ->] | [s [m [e ->]]]];
    cbn; eauto.
Qed.

Lemma float_add_zero_r (a z : float) :
  (z =? 0) = true -> is_finite a = true -> (a + z =? a) = true.
Proof.
  intros Hz Ha. apply float_eqb_zero_spec in Hz as [sz Hz].
  rewrite eqb_spec, add_spec, Hz. unfold SFeqb, SF64add, SFadd.
  destruct (@float_finite_spec a Ha) as [[s ->] | [s [m [e ->]]]].
  - now destruct s, sz.
  - rewrite SFcompare_refl by discriminate. reflexivity.
Qed.

Lemma float_zero_div (n d : float) :
  (n =? 0) = true -> is_finite d = true -> (d =? 0) = false ->
  (n / d =? 0) = true.
Proof.
  intros Hn Hd Hd0. apply float_eqb_zero_spec in Hn as [sn Hn].
  destruct (float_finite_nonzero_spec d Hd Hd0) as [s [m [e Hs]]].
  apply float_eqb_zero_spec. rewrite div_spec, Hn, Hs. cbn. eauto.
Qed.

Lemma float_div_self (d : float) :
  is_finite d = true -> (d =? 0) = false -> d / d = 1.
Proof.
  intros Hd Hd0.
  destruct (float_finite_nonzero_spec d Hd Hd0) as [s [m [e Hs]]].
  apply Prim2SF_inj. rewrite div_spec, Hs, Prim2SF_one. apply SFdiv_self.
Qed.

(** Two finite floats that are not [==] have a non-zero difference. *)
Lemma float_sub_nonzero (a b : float) :
  is_finite a = true -> is_finite b = true -> (a =? b) = false ->
  (a - b =? 0) = false.
Proof.
  intros Ha Hb Hne. apply not_true_is_false. intros Hz.
  apply float_eqb_zero_spec in Hz as [z Hz]. rewrite sub_spec in Hz.
  rewrite eqb_spec in Hne. unfold SFeqb in Hne.
  pose proof (Prim2SF_valid a) as Hva. pose proof (Prim2SF_valid b) as Hvb.
  destruct (@float_finite_spec a Ha) as [[sa Hsa] | [sa [ma [ea Hsa]]]];
    destruct (@float_finite_spec b Hb) as [[sb Hsb] | [sb [mb [eb Hsb]]]];
    rewrite Hsa, Hsb in *; try discriminate.
  unfold valid_binary, bounded in Hva, Hvb.
  apply andb_true_iff in Hva as [Hca _]. apply andb_true_iff in Hvb as [Hcb _].
  assert (Hdec : (sa, ma, ea) = (sb, mb, eb) \/ (sa, ma, ea) <> (sb, mb, eb)).
  { destruct (bool_dec sa sb), (Pos.eq_dec ma mb), (Z.eq_dec ea eb);
      subst; auto; right; congruence. }
  destruct Hdec as [Hsame | Hdiff].
  - injection Hsame as -> -> ->.
    rewrite SFcompare_refl in Hne by discriminate. discriminate.
  - exact (SFsub_finite_nonzero _ _ _ _ _ _ Hca Hcb Hdiff z Hz).
Qed.

Lemma float_zero_add_sub (z a b : float) :
  (z =? 0) = true -> is_finite a = true -> is_finite b = true ->
  (a - b =? 0) = false -> z + a - b = a - b.
Proof.
  intros Hz Ha Hb Hd0. apply float_eqb_zero_spec in Hz as [sz Hz].
  apply Prim2SF_inj. rewrite eqb_spec, sub_spec in Hd0.
  rewrite !sub_spec, add_spec, Hz.
  destruct (@float_finite_spec a Ha) as [[sa Hsa] | [sa [ma [ea Hsa]]]];
    destruct (@float_finite_spec b Hb) as [[sb Hsb] | [sb [mb [eb Hsb]]]];
    rewrite Hsa, Hsb in *; try reflexivity.
  - now destruct sa, sb.
  - now destruct sz, sa.
Qed.

Lemma float_add_zero_l (z a : float) :
  (z =? 0) = true -> is_finite a = true -> (z + a =? a) = true.
Proof.
  intros Hz Ha. apply float_eqb_zero_spec in Hz as [sz Hz].
  rewrite eqb_spec, add_spec, Hz. unfold SFeqb, SF64add, SFadd.
  destruct (@float_finite_spec a Ha) as [[s ->] | [s [m [e ->]]]].
  - now destruct s, sz.
  - rewrite SFcompare_refl by discriminate. reflexivity.
Qed.

Lemma float_eqb_refl (a : float) : is_finite a = true -> (a =? a) = true.
Proof.
  unfold is_finite, is_nan. now destruct (a =? a).
Qed.

Lemma float_zero_cases (q : float) :
  (q =? 0) = true -> q = 0 \/ q = neg_zero.
Proof.
  intros Hq. apply float_eqb_zero_spec in Hq as [s Hs].
  rewrite <- (SF2Prim_Prim2SF q), Hs. destruct s; cbn; auto.
Qed.

End FloatExact.

(** * The round trip on binary64 floats *)

Section RoundTripOnFloats.

Import SteamTables.
Local Open Scope string_scope.
Local Open Scope float_scope.

Variable saturation_table : string -> list float.
Variable interpol : float -> list float -> list float -> float.

(** C9, as the program computes it: where the two saturated volumes are
    finite floats that differ and their difference does not overflow, the
    round trip never raises, and it gives back the two end qualities, 0 and
    1.  Between the two the result is a float that need not be the quality
    the volume was computed from. *)
Theorem roundtrip_binary64 (value : float) (_input : string) :
  let vf := interpol value (saturation_table _input) (saturation_table "Vf") in
  let vg := interpol value (saturation_table _input) (saturation_table "Vg") in
  is_finite vf = true -> is_finite vg = true ->
  is_finite (vg - vf) = true -> (vg =? vf) = false ->
  (forall x, exists y,
      quality_of_mixture saturation_table interpol x value _input = Return y) /\
  (exists y,
      quality_of_mixture saturation_table interpol 0 value _input = Return y /\
      (y =? 0) = true) /\
  (exists y,
      quality_of_mixture saturation_table interpol 1 value _input = Return y /\
      (y =? 1) = true).
Proof.
  intros vf vg Hf Hg Hd Hne.
  pose proof (float_sub_nonzero vg vf Hg Hf Hne) as Hd0.
  unfold quality_of_mixture, mixture_volume, vapor_quality, stable, truediv.
  cbn [map bind]. fold vf vg.
  change (@eqb float float_Number) with PrimFloat.eqb.
  change (@sub float float_Number) with PrimFloat.sub.
  change (@add float float_Number) with PrimFloat.add.
  change (@mul float float_Number) with PrimFloat.mul.
  change (@div float float_Number) with PrimFloat.div.
  change (@zero float float_Number) with 0.
  change (@one float float_Number) with 1.
  rewrite Hd0.
  split; [ | split].
  - intros x. eexists. reflexivity.
  - eexists. split; [reflexivity | ].
    change (1 - 0) with 1. rewrite float_mul_one_l.
    apply float_zero_div; [ | exact Hd | exact Hd0].
    apply (@float_sub_eq_zero (vf + 0 * vg) vf); [ | exact Hf].
    apply float_add_zero_r; [ | exact Hf].
    apply float_zero_mul; [reflexivity | exact Hg].
  - eexists. split; [reflexivity | ].
    change (1 - 1) with 0. rewrite float_mul_one_l.
    rewrite (float_zero_add_sub (0 * vf) vg vf); try assumption.
    + rewrite (float_div_self _ Hd Hd0). reflexivity.
    + apply float_zero_mul; [reflexivity | exact Hf].
Qed.

(** X14: on floats, under the same conditions, the quality of the
    saturated-liquid volume is 0 and the quality of the saturated-vapor
    volume is 1, and the mixture volume of each of these qualities is the
    volume it came from. *)
Theorem saturation_volumes_roundtrip (value : float) (_input : string) :
  let vf := interpol value (saturation_table _input) (saturation_table "Vf") in
  let vg := interpol value (saturation_table _input) (saturation_table "Vg") in
  is_finite vf = true -> is_finite vg = true ->
  is_finite (vg - vf) = true -> (vg =? vf) = false ->
  (exists q w,
      vapor_quality saturation_table interpol vf value _input = Return q /\
      (q =? 0) = true /\
      mixture_volume saturation_table interpol q value _input = Return w /\
      (w =? vf) = true) /\
  (exists q w,
      vapor_quality saturation_table interpol vg value _input = Return q /\
      (q =? 1) = true /\
      mixture_volume saturation_table interpol q value _input = Return w /\
      (w =? vg) = true).
Proof.
  intros vf vg Hf Hg Hd Hne.
  pose proof (float_sub_nonzero vg vf Hg Hf Hne) as Hd0.
  unfold mixture_volume, vapor_quality, stable, truediv.
  cbn [map]. fold vf vg.
  change (@eqb float float_Number) with PrimFloat.eqb.
  change (@sub float float_Number) with PrimFloat.sub.
  change (@add float float_Number) with PrimFloat.add.
  change (@mul float float_Number) with PrimFloat.mul.
  change (@div float float_Number) with PrimFloat.div.
  change (@zero float float_Number) with 0.
  change (@one float float_Number) with 1.
  rewrite Hd0.
  assert (Hq : ((vf - vf) / (vg - vf) =? 0) = true).
  { apply float_zero_div; [ | exact Hd | exact Hd0].
    apply (@float_sub_eq_zero vf vf); [ | exact Hf].
    now apply float_eqb_refl. }
  split.
  - do 2 eexists. split; [reflexivity | ]. split; [exact Hq | ].
    split; [reflexivity | ].
    destruct (float_zero_cases _ Hq) as [-> | ->].
    + change (1 - 0) with 1. rewrite float_mul_one_l.
      apply float_add_zero_r; [ | exact Hf].
      apply float_zero_mul; [reflexivity | exact Hg].
    + change (1 - neg_zero) with 1. rewrite float_mul_one_l.
      apply float_add_zero_r; [ | exact Hf].
      apply float_zero_mul; [reflexivity | exact Hg].
  - do 2 eexists. split; [reflexivity | ].
    rewrite (float_div_self _ Hd Hd0).
    split; [reflexivity | ]. split; [reflexivity | ].
    change (1 - 1) with 0. rewrite float_mul_one_l.
    apply float_add_zero_l; [ | exact Hg].
    apply float_zero_mul; [reflexivity | exact Hf].
Qed.

Lemma phase_None_on_saturation (T v : float) (debug : bool) :
  let vf := interpol T (saturation_table "T") (saturation_table "Vf") in
  let vg := interpol T (saturation_table "T") (saturation_table "Vg") in
  (vf <? vg) = true -> (v =? vf) = true \/ (v =? vg) = true ->
  phase saturation_table interpol T None (Some v) debug = Return None.
Proof.
  intros vf vg Hlt Hv.
  unfold phase, stable. cbn [map]. fold vf vg. cbn.
  pose proof (float_ltb_asym Hlt) as Hgl.
  destruct Hv as [E | E]; destruct (float_eqb_not_ltb E) as [E1 E2].
  - rewrite E1, E2, (float_eqb_ltb_r vg E), Hgl. reflexivity.
  - rewrite (float_eqb_ltb_l vf E), Hgl, E1, E2, andb_false_r. reflexivity.
Qed.

(** X15: on floats, the mixture volume of quality 0 is the saturated-liquid
    volume and that of quality 1 is the saturated-vapor volume, and [phase]
    gives neither of the two a label: with the liquid volume below the
    vapor volume it returns [None] for both. *)
Theorem saturated_states_unlabelled (T : float) (debug : bool) :
  let vf := interpol T (saturation_table "T") (saturation_table "Vf") in
  let vg := interpol T (saturation_table "T") (saturation_table "Vg") in
  is_finite vf = true -> is_finite vg = true -> (vf <? vg) = true ->
  exists w0 w1,
    mixture_volume saturation_table interpol 0 T "T" = Return w0 /\
    (w0 =? vf) = true /\
    phase saturation_table interpol T None (Some w0) debug = Return None /\
    mixture_volume saturation_table interpol 1 T "T" = Return w1 /\
    (w1 =? vg) = true /\
    phase saturation_table interpol T None (Some w1) debug = Return None.
Proof.
  intros vf vg Hf Hg Hlt.
  assert (H0 : (1 * vf + 0 * vg =? vf) = true).
  { rewrite float_mul_one_l. apply float_add_zero_r; [ | exact Hf].
    apply float_zero_mul; [reflexivity | exact Hg]. }
  assert (H1 : (0 * vf + 1 * vg =? vg) = true).
  { rewrite float_mul_one_l. apply float_add_zero_l; [ | exact Hg].
    apply float_zero_mul; [reflexivity | exact Hf]. }
  exists (1 * vf + 0 * vg), (0 * vf + 1 * vg).
  repeat split; try assumption; try reflexivity.
  - apply phase_None_on_saturation; [exact Hlt | now left].
  - apply phase_None_on_saturation; [exact Hlt | now right].
Qed.

End RoundTripOnFloats.

(** * The theorems above on the rows of the table *)

Section TableRows.

Import SteamTables.

Lemma stable_column_by_column_witness :
  nth_error (stable row_232 first_row
               232%float "T" ["P"; "Vf"; "Vg"]%string) 1
  = nth_error (stable row_232 first_row
                 232%float "T" ["Vf"%string]) 0.
Proof.
  apply (proj2 (stable_column_by_column row_232
                  first_row 232%float "T"
                  ["P"; "Vf"; "Vg"]%string)).
  reflexivity.
Defined.

Lemma phase_by_volume_witness :
  (phase row_232 first_row 232%float
     None (Some 0.03%float) false = Return (Some "Liquid"%string)
   <-> (0.03 <? 0.001213)%float = true) /\
  (phase row_232 first_row 232%float
     None (Some 0.03%float) false
     = Return (Some "Two mixed phase mixture liquid and vapor"%string)
   <-> (0.001213 <? 0.03)%float = true /\ (0.03 <? 0.069092)%float = true) /\
  (phase row_232 first_row 232%float
     None (Some 0.03%float) false = Return (Some "Super Heated Vapor"%string)
   <-> (0.069092 <? 0.03)%float = true) /\
  (phase row_232 first_row 232%float
     None (Some 0.03%float) false = Return None
   <-> (0.03 =? 0.001213)%float = true \/ (0.03 =? 0.069092)%float = true
       \/ is_nan 0.03%float = true).
Proof.
  apply (@phase_by_volume row_232 first_row
           232%float 0.03%float false).
  reflexivity.
Defined.

Lemma phase_nan_is_vapor_witness :
  phase row_232 first_row nan
    (Some 2900.98%float) None false = Return (Some "Vapor"%string).
Proof.
  apply (@phase_nan_is_vapor row_232 first_row
           nan 2900.98%float None false).
  left. reflexivity.
Defined.

Lemma vapor_quality_equal_volumes_witness :
  vapor_quality row_critical first_row
    0.003155%float 374.1%float "T" = Raise ZeroDivisionError.
Proof.
  apply (@vapor_quality_equal_volumes row_critical
           first_row 0.003155%float 374.1%float "T");
    reflexivity.
Defined.

Lemma roundtrip_binary64_witness :
  (forall x, exists y,
      quality_of_mixture row_232 first_row x 232%float "T" = Return y) /\
  (exists y,
      quality_of_mixture row_232 first_row 0%float 232%float "T" = Return y /\
      (y =? 0)%float = true) /\
  (exists y,
      quality_of_mixture row_232 first_row 1%float 232%float "T" = Return y /\
      (y =? 1)%float = true).
Proof.
  apply (@roundtrip_binary64 row_232 first_row 232%float "T"); reflexivity.
Defined.

Lemma saturation_volumes_roundtrip_witness :
  (exists q w,
      vapor_quality row_232 first_row 0.001213%float 232%float "T" = Return q /\
      (q =? 0)%float = true /\
      mixture_volume row_232 first_row q 232%float "T" = Return w /\
      (w =? 0.001213)%float = true) /\
  (exists q w,
      vapor_quality row_232 first_row 0.069092%float 232%float "T" = Return q /\
      (q =? 1)%float = true /\
      mixture_volume row_232 first_row q 232%float "T" = Return w /\
      (w =? 0.069092)%float = true).
Proof.
  apply (@saturation_volumes_roundtrip row_232 first_row 232%float "T");
    reflexivity.
Defined.

Lemma saturated_states_unlabelled_witness :
  exists w0 w1,
    mixture_volume row_232 first_row 0%float 232%float "T" = Return w0 /\
    (w0 =? 0.001213)%float = true /\
    phase row_232 first_row 232%float None (Some w0) false = Return None /\
    mixture_volume row_232 first_row 1%float 232%float "T" = Return w1 /\
    (w1 =? 0.069092)%float = true /\
    phase row_232 first_row 232%float None (Some w1) false = Return None.
Proof.
  apply (@saturated_states_unlabelled row_232 first_row 232%float false);
    reflexivity.
Defined.

End TableRows.
